(** * distributed/worker_client.py: the scoped nested-client context

    The module under verification has two functions:

    - [worker_client], a generator wrapped by [contextlib.contextmanager];
    - [local_client], its deprecated alias.

    Everything [worker_client] calls ([dask.config.get], [parse_timedelta],
    [get_worker], [get_client], [secede], [rejoin], the attribute and dict
    reads on [thread_state] and [worker], [loop.add_callback],
    [warnings.warn]) lives outside the module.  The embedding therefore has
    two layers:

    - a generic layer, in which the generator body is a tree of external
      calls and the meaning of each call is an arbitrary handler over an
      arbitrary world: what is proved there holds whatever the collaborators
      do;
    - a runtime layer, which fixes one world and one handler for the
      collaborators, for the statements that speak about pool slots, the
      cached client, the duration parser and the task table. *)

From Stdlib Require Import QArith.
From stdpp Require Import gmap strings list fin_maps.

Local Open Scope string_scope.
Local Open Scope list_scope.

(** ** Data *)

(** Task keys are strings; task records, clients and workers are Python
    objects and are represented by their identity. *)
Abbreviation Key := string (only parsing).
Abbreviation TaskRef := nat (only parsing).
Abbreviation Client := nat (only parsing).
Abbreviation Worker := nat (only parsing).

(** A timeout as callers write it: a number of seconds or a duration string.
    The [timeout] parameter itself is [option duration], [None] being
    Python's [None]. *)
Inductive duration : Type :=
| Num (n : Q)
| Str (s : string).

(** Python truthiness of a timeout value ([0] and [''] are falsy). *)
Definition truthy (t : duration) : bool :=
  match t with
  | Num n => negb (Qeq_bool n 0)
  | Str s => negb (String.eqb s "")
  end.

(** What [worker_client] hands to [loop.add_callback]: the bound method
    [worker.transition] together with its two arguments, the task record
    (by identity) and the target state. *)
Inductive Callback : Type :=
| Transition (ts : TaskRef) (finish : string).

Inductive Exn : Type :=
| ParseError (s : string)
| ConnectionTimeout
| NotInTaskContext
| KeyError (k : string)
| AttributeError (name : string)
| RuntimeError (msg : string)
| BlockError (n : nat).

Inductive outcome (A : Type) : Type :=
| Returns (a : A)
| Raises (e : Exn).
Arguments Returns {A} a.
Arguments Raises {A} e.

(** ** External calls *)

(** One constructor per call or lookup that the module performs, with the
    arguments it is given. *)
Inductive Call : Type :=
| ConfigGet (k : string)                        (* dask.config.get(k) *)
| ParseTimedelta (t : duration) (default : string)
| GetWorker
| GetClient (timeout : Q)
| Secede
| ThreadStateKey                                (* thread_state.key *)
| TasksGetItem (worker : Worker) (k : Key)      (* worker.tasks[k] *)
| AddCallback (worker : Worker) (cb : Callback) (* worker.loop.add_callback *)
| Rejoin
| Warn (msg : string).                          (* warnings.warn(msg) *)

(** The type of the value a call returns. *)
Definition ret (c : Call) : Type :=
  match c with
  | ConfigGet _ => duration
  | ParseTimedelta _ _ => Q
  | GetWorker => Worker
  | GetClient _ => Client
  | Secede => unit
  | ThreadStateKey => Key
  | TasksGetItem _ _ => TaskRef
  | AddCallback _ _ => unit
  | Rejoin => unit
  | Warn _ => unit
  end.

(** ** Generator bodies *)

(** A Python function body without [try] statements, as the tree of what it
    does next: return, make an external call and continue with its result,
    or [yield] a value of type [Y] and continue when resumed.  (The module
    has no [try], [except], [finally] or [with]; hence no handler
    construct.)  An ordinary function is a body that cannot yield:
    [Y := Empty_set]. *)
Inductive gen (Y R : Type) : Type :=
| Return (r : R)
| Invoke (c : Call) (k : ret c -> gen Y R)
| Yield (y : Y) (k : gen Y R).
Arguments Return {Y R} r.
Arguments Invoke {Y R} c k.
Arguments Yield {Y R} y k.

Fixpoint gen_bind {Y A B : Type} (f : A -> gen Y B) (g : gen Y A) : gen Y B :=
  match g with
  | Return a => f a
  | Invoke c k => Invoke c (fun x => gen_bind f (k x))
  | Yield y k => Yield y (gen_bind f k)
  end.

#[export] Instance gen_ret {Y} : MRet (gen Y) := @Return Y.
#[export] Instance gen_mbind {Y} : MBind (gen Y) := @gen_bind Y.

Definition call {Y} (c : Call) : gen Y (ret c) := Invoke c Return.
Definition yield {Y} (y : Y) : gen Y unit := Yield y (Return tt).

(** A generator that yields clients, and a function that yields nothing. *)
Abbreviation generator := (gen Client unit).
Abbreviation func := (gen Empty_set).

(** The collaborators, under the names the module imports them by. *)
Definition config_get {Y} (k : string) : gen Y duration := call (ConfigGet k).
Definition parse_timedelta {Y} (t : duration) (default : string) : gen Y Q :=
  call (ParseTimedelta t default).
Definition get_worker {Y} : gen Y Worker := call GetWorker.
Definition get_client {Y} (timeout : Q) : gen Y Client := call (GetClient timeout).
Definition secede {Y} : gen Y unit := call Secede.
Definition rejoin {Y} : gen Y unit := call Rejoin.
Definition thread_state_key {Y} : gen Y Key := call ThreadStateKey.
Definition tasks_getitem {Y} (worker : Worker) (k : Key) : gen Y TaskRef :=
  call (TasksGetItem worker k).
Definition add_callback {Y} (worker : Worker) (cb : Callback) : gen Y unit :=
  call (AddCallback worker cb).
Definition warn {Y} (msg : string) : gen Y unit := call (Warn msg).

(** ** The module *)

(** [worker_client(timeout=None, separate_thread=True)], lines 46-62. *)
Definition worker_client (timeout : option duration) (separate_thread : bool)
  : generator :=
  timeout ← match timeout with
            | None => config_get "distributed.comm.timeouts.connect"
            | Some t => mret t
            end;
  timeout ← parse_timedelta timeout "s";
  worker ← get_worker;
  client ← get_client timeout;
  (if separate_thread then
     secede;;
     key ← thread_state_key;
     ts ← tasks_getitem worker key;
     add_callback worker (Transition ts "long-running")
   else mret tt);;
  yield client;;
  if separate_thread then rejoin else mret tt.

Definition deprecation_message : string :=
  "local_client has moved to worker_client".

(** [local_client( *args, **kwargs)], lines 65-67.  It is an ordinary
    function: the warning is issued when it is called, and what it returns
    is the context manager that [worker_client] returns for the same
    arguments. *)
Definition local_client (timeout : option duration) (separate_thread : bool)
  : func generator :=
  warn deprecation_message;;
  mret (worker_client timeout separate_thread).

(** Calling the decorated [worker_client] only builds the context manager:
    no line of the generator body runs before [__enter__]. *)
Definition worker_client_call (timeout : option duration)
    (separate_thread : bool) : func generator :=
  mret (worker_client timeout separate_thread).

(** ** Running a body *)

(** What an observer of the thread sees, in order: each external call, with
    whether it returned or raised, and each value handed to a [with] block
    by [__enter__]. *)
Inductive Event : Type :=
| Returned (c : Call)
| Raised (c : Call) (e : Exn)
| Yielded (y : Client).

#[export] Instance duration_eq_dec : EqDecision duration.
Proof. unfold EqDecision, Decision. repeat decide equality. Defined.
#[export] Instance Callback_eq_dec : EqDecision Callback.
Proof. solve_decision. Defined.
#[export] Instance Exn_eq_dec : EqDecision Exn.
Proof. solve_decision. Defined.
#[export] Instance Call_eq_dec : EqDecision Call.
Proof. unfold EqDecision, Decision. repeat decide equality. Defined.
#[export] Instance Event_eq_dec : EqDecision Event.
Proof. solve_decision. Defined.

(** Where a body stands after it has been run as far as it goes. *)
Inductive status (Y R : Type) : Type :=
| Finished (r : R)                 (* returned: StopIteration for a generator *)
| Failed (e : Exn)                 (* an exception left the body *)
| Suspended (y : Y) (k : gen Y R). (* stopped at a [yield], [k] is the rest *)
Arguments Finished {Y R} r.
Arguments Failed {Y R} e.
Arguments Suspended {Y R} y k.

Definition is_call_of (p : Call -> bool) (ev : Event) : bool :=
  match ev with
  | Returned c | Raised c _ => p c
  | Yielded _ => false
  end.

Definition is_yield (ev : Event) : bool :=
  match ev with Yielded _ => true | _ => false end.

Definition is_secede (c : Call) : bool :=
  match c with Secede => true | _ => false end.
Definition is_rejoin (c : Call) : bool :=
  match c with Rejoin => true | _ => false end.
Definition is_add_callback (c : Call) : bool :=
  match c with AddCallback _ _ => true | _ => false end.
Definition is_get_client (c : Call) : bool :=
  match c with GetClient _ => true | _ => false end.
Definition is_get_worker (c : Call) : bool :=
  match c with GetWorker => true | _ => false end.
Definition is_config_get (c : Call) : bool :=
  match c with ConfigGet _ => true | _ => false end.
Definition is_parse (c : Call) : bool :=
  match c with ParseTimedelta _ _ => true | _ => false end.
Definition is_warn (c : Call) : bool :=
  match c with Warn _ => true | _ => false end.

(** [count p t]: how many events of the trace [t] are calls satisfying [p]. *)
Definition count (p : Call -> bool) (t : list Event) : nat :=
  length (filter (fun ev => is_call_of p ev = true) t).

Section Semantics.
Context {W : Type}.

(** The collaborators: what each call does to the world and what it
    returns or raises. *)
Variable handle : forall c : Call, W -> outcome (ret c) * W.

(** Run a body until it returns, raises or yields.  An exception raised by
    a call is not caught by anything in the body, so it ends the run. *)
Fixpoint resume {Y R : Type} (g : gen Y R) (w : W)
  : status Y R * W * list Event :=
  match g with
  | Return r => (Finished r, w, [])
  | Invoke c k =>
      match handle c w with
      | (Returns x, w') =>
          let '(s, w'', t) := resume (k x) w' in (s, w'', Returned c :: t)
      | (Raises e, w') => (Failed e, w', [Raised c e])
      end
  | Yield y k => (Suspended y k, w, [])
  end.

(** [generator.throw(e)] on a generator suspended at a [yield] that no
    [try] statement encloses: the exception is raised at the [yield] and
    leaves the generator; no statement of the rest [k] runs. *)
Definition throw {Y R : Type} (k : gen Y R) (e : Exn) (w : W)
  : status Y R * W * list Event :=
  (Failed e, w, []).

(** [_GeneratorContextManager.__enter__]: [next(gen)]. *)
Definition cm_enter (g : generator) (w : W)
  : outcome (Client * generator) * W * list Event :=
  match resume g w with
  | (Suspended y k, w', t) => (Returns (y, k), w', t ++ [Yielded y])
  | (Finished _, w', t) => (Raises (RuntimeError "generator didn't yield"), w', t)
  | (Failed e, w', t) => (Raises e, w', t)
  end.

(** [_GeneratorContextManager.__exit__]: [next(gen)] when the block
    completed, [gen.throw(exc)] when it raised [exc].  The result is the
    truth value that tells the [with] statement to swallow the
    exception. *)
Definition cm_exit (k : generator) (exc : option Exn) (w : W)
  : outcome bool * W * list Event :=
  match exc with
  | None =>
      match resume k w with
      | (Finished _, w', t) => (Returns false, w', t)
      | (Failed e, w', t) => (Raises e, w', t)
      | (Suspended _ _, w', t) =>
          (Raises (RuntimeError "generator didn't stop"), w', t)
      end
  | Some exc =>
      match throw k exc w with
      | (Finished _, w', t) => (Returns true, w', t)
      | (Failed e, w', t) =>
          if decide (e = exc) then (Returns false, w', t)
          else (Raises e, w', t)
      | (Suspended _ _, w', t) =>
          (Raises (RuntimeError "generator didn't stop after throw()"), w', t)
      end
  end.

(** The caller's block: given the client, it changes the world and either
    completes or raises. *)
Definition block : Type := Client -> W -> outcome unit * W.

(** [with <cm> as c: <body>], where [cm] is the call that produces the
    context manager. *)
Definition with_ (cm : func generator) (body : block) (w : W)
  : outcome unit * W * list Event :=
  match resume cm w with
  | (Finished g, w0, t0) =>
      match cm_enter g w0 with
      | (Raises e, w1, t1) => (Raises e, w1, t0 ++ t1)
      | (Returns (c, k), w1, t1) =>
          match body c w1 with
          | (Returns _, w2) =>
              match cm_exit k None w2 with
              | (Returns _, w3, t3) => (Returns tt, w3, t0 ++ t1 ++ t3)
              | (Raises e, w3, t3) => (Raises e, w3, t0 ++ t1 ++ t3)
              end
          | (Raises exc, w2) =>
              match cm_exit k (Some exc) w2 with
              | (Returns true, w3, t3) => (Returns tt, w3, t0 ++ t1 ++ t3)
              | (Returns false, w3, t3) => (Raises exc, w3, t0 ++ t1 ++ t3)
              | (Raises e, w3, t3) => (Raises e, w3, t0 ++ t1 ++ t3)
              end
          end
      end
  | (Failed e, w0, t0) => (Raises e, w0, t0)
  | (Suspended y _, _, _) => match y with end
  end.

End Semantics.

(** ** The worker runtime *)

(** One worker process seen from the thread that calls [worker_client]. *)
Module Runtime.

(** How the calling thread stands with respect to the worker's thread
    pool. *)
Inductive Membership : Type :=
| InPool      (* occupies a slot *)
| Seceded     (* gave its slot up with [secede] *)
| Outside.    (* not a thread of the pool *)

Record Pool : Type := {
  accounted : nat;          (* threads counted against the pool's limit *)
  membership : Membership;
}.

Record ClientCache : Type := {
  cached : option Client;   (* the process-wide client, once created *)
  connections : nat;        (* connections opened to the scheduler so far *)
}.

Record World : Type := {
  config : gmap string duration;     (* dask.config *)
  duration_string : string -> option Q;
                                     (* seconds denoted by a duration
                                        string, [None] if unparseable *)
  thread_key : option Key;           (* thread_state.key, unset off-task *)
  pool : Pool;
  worker : Worker;                   (* the process's Worker object *)
  tasks : gmap Key TaskRef;          (* worker.tasks *)
  task_state : gmap TaskRef string;  (* state of each task record *)
  loop : list Callback;              (* worker.loop: pending callbacks *)
  cache : ClientCache;
  scheduler_latency : option Q;      (* seconds the scheduler needs to
                                        answer, [None] if unreachable *)
  warnings : list string;
}.

Definition set_pool (p : Pool) (w : World) : World :=
  {| config := config w; duration_string := duration_string w;
     thread_key := thread_key w; pool := p; worker := worker w;
     tasks := tasks w; task_state := task_state w; loop := loop w;
     cache := cache w; scheduler_latency := scheduler_latency w;
     warnings := warnings w |}.

Definition set_task_state (m : gmap TaskRef string) (w : World) : World :=
  {| config := config w; duration_string := duration_string w;
     thread_key := thread_key w; pool := pool w; worker := worker w;
     tasks := tasks w; task_state := m; loop := loop w;
     cache := cache w; scheduler_latency := scheduler_latency w;
     warnings := warnings w |}.

Definition set_loop (l : list Callback) (w : World) : World :=
  {| config := config w; duration_string := duration_string w;
     thread_key := thread_key w; pool := pool w; worker := worker w;
     tasks := tasks w; task_state := task_state w; loop := l;
     cache := cache w; scheduler_latency := scheduler_latency w;
     warnings := warnings w |}.

Definition set_cache (c : ClientCache) (w : World) : World :=
  {| config := config w; duration_string := duration_string w;
     thread_key := thread_key w; pool := pool w; worker := worker w;
     tasks := tasks w; task_state := task_state w; loop := loop w;
     cache := c; scheduler_latency := scheduler_latency w;
     warnings := warnings w |}.

Definition set_warnings (l : list string) (w : World) : World :=
  {| config := config w; duration_string := duration_string w;
     thread_key := thread_key w; pool := pool w; worker := worker w;
     tasks := tasks w; task_state := task_state w; loop := loop w;
     cache := cache w; scheduler_latency := scheduler_latency w;
     warnings := l |}.

(** [dask.config.get(k)]: the configured value, [KeyError] if unset. *)
Definition config_get (k : string) (w : World) : outcome duration * World :=
  match config w !! k with
  | Some d => (Returns d, w)
  | None => (Raises (KeyError k), w)
  end.

(** Modelled from the spec: [parse_timedelta] (distributed/utils.py is not
    part of the sources).  Sections 4.3 and 8: a numeric count of seconds
    is that many seconds, a duration string is the seconds it denotes, an
    unparseable string fails with a dedicated parse error.  The grammar of
    duration strings is the world's [duration_string]. *)
Definition parse_timedelta (t : duration) (default : string) (w : World)
  : outcome Q * World :=
  match t with
  | Num n => (Returns n, w)
  | Str s =>
      match duration_string w s with
      | Some q => (Returns q, w)
      | None => (Raises (ParseError s), w)
      end
  end.

(** Modelled from the spec: [get_worker] (distributed/worker.py is not
    part of the sources).  Sections 4.3, 4.4 and 7: resolves the current
    worker; [NotInTaskContext] when the thread is not executing a worker
    task (no task key resolvable), with no side effect. *)
Definition get_worker (w : World) : outcome Worker * World :=
  match thread_key w with
  | Some _ => (Returns (worker w), w)
  | None => (Raises NotInTaskContext, w)
  end.

(** Modelled from the spec: [get_client] (distributed/worker.py is not
    part of the sources).  Section 4.3: return the cached client if one
    exists, never opening a second connection; otherwise connect within
    the timeout, cache the new client and return it; [ConnectionTimeout]
    if no client becomes available within the timeout;
    [NotInTaskContext] off a worker task. *)
Definition get_client (timeout : Q) (w : World) : outcome Client * World :=
  match thread_key w with
  | None => (Raises NotInTaskContext, w)
  | Some _ =>
      match cached (cache w) with
      | Some c => (Returns c, w)
      | None =>
          match scheduler_latency w with
          | Some l =>
              if Qle_bool l timeout then
                let c := S (connections (cache w)) in
                (Returns c,
                 set_cache {| cached := Some c;
                              connections := S (connections (cache w)) |} w)
              else (Raises ConnectionTimeout, w)
          | None => (Raises ConnectionTimeout, w)
          end
      end
  end.

(** Modelled from the spec: [secede] (distributed/threadpoolexecutor.py is
    not part of the sources).  Sections 4.1 and 7: a thread occupying a
    slot releases it and keeps running; from any other thread it is a
    recoverable warning and releases nothing. *)
Definition secede (w : World) : outcome unit * World :=
  match membership (pool w) with
  | InPool =>
      (Returns tt,
       set_pool {| accounted := pred (accounted (pool w));
                   membership := Seceded |} w)
  | Seceded | Outside =>
      (Returns tt, set_warnings (warnings w ++ ["secede outside pool"]) w)
  end.

(** Modelled from the spec: [rejoin] (distributed/threadpoolexecutor.py is
    not part of the sources).  Section 4.1: a seceded thread is counted
    again, whatever the pool's load; without a matching [secede] it is a
    warning that leaves the count alone. *)
Definition rejoin (w : World) : outcome unit * World :=
  match membership (pool w) with
  | Seceded =>
      (Returns tt,
       set_pool {| accounted := S (accounted (pool w));
                   membership := InPool |} w)
  | InPool | Outside =>
      (Returns tt, set_warnings (warnings w ++ ["rejoin without secede"]) w)
  end.

(** [thread_state.key]: an attribute of a thread-local object, set only
    while the thread runs a task. *)
Definition thread_state_key (w : World) : outcome Key * World :=
  match thread_key w with
  | Some k => (Returns k, w)
  | None => (Raises (AttributeError "key"), w)
  end.

(** [worker.tasks[k]]: a dict subscript. *)
Definition tasks_getitem (wk : Worker) (k : Key) (w : World)
  : outcome TaskRef * World :=
  match tasks w !! k with
  | Some ts => (Returns ts, w)
  | None => (Raises (KeyError k), w)
  end.

(** [worker.loop.add_callback(f, *args)]: the call is queued for the
    control loop and the caller goes on at once. *)
Definition add_callback (wk : Worker) (cb : Callback) (w : World)
  : outcome unit * World :=
  (Returns tt, set_loop (loop w ++ [cb]) w).

(** [warnings.warn(msg)]. *)
Definition warn (msg : string) (w : World) : outcome unit * World :=
  (Returns tt, set_warnings (warnings w ++ [msg]) w).

Definition handle (c : Call) : World -> outcome (ret c) * World :=
  match c return World -> outcome (ret c) * World with
  | ConfigGet k => config_get k
  | ParseTimedelta t d => parse_timedelta t d
  | GetWorker => get_worker
  | GetClient timeout => get_client timeout
  | Secede => secede
  | ThreadStateKey => thread_state_key
  | TasksGetItem wk k => tasks_getitem wk k
  | AddCallback wk cb => add_callback wk cb
  | Rejoin => rejoin
  | Warn msg => warn msg
  end.

(** Modelled from the spec: [worker.transition] as run by the control
    loop (distributed/worker.py is not part of the sources).  Section 4.2:
    the task's record is flipped to the requested state. *)
Definition transition (ts : TaskRef) (finish : string) (w : World) : World :=
  set_task_state (<[ts := finish]> (task_state w)) w.

Definition run_callback (w : World) (cb : Callback) : World :=
  match cb with
  | Transition ts finish => transition ts finish w
  end.

(** The control loop takes its turn: every pending callback runs, in the
    order posted. *)
Definition run_loop (w : World) : World :=
  foldl run_callback (set_loop [] w) (loop w).

(** The timeout [worker_client] works with: the argument if it is not
    [None], else the configured default. *)
Definition effective_timeout (timeout : option duration) (w : World)
  : option duration :=
  match timeout with
  | Some t => Some t
  | None => config w !! "distributed.comm.timeouts.connect"
  end.

(** A world to run examples in: a pool of one thread, running task ["t"],
    whose record is object 7, while task ["u"], record 8, waits for a
    slot; the scheduler answers in half a second; the default connect
    timeout is the string ["10s"]. *)
Definition example_grammar (s : string) : option Q :=
  if String.eqb s "10s" then Some 10%Q
  else if String.eqb s "1m" then Some 60%Q
  else if String.eqb s "100ms" then Some (1 # 10)%Q
  else None.

Definition example_world : World :=
  {| config := {[ "distributed.comm.timeouts.connect" := Str "10s" ]};
     duration_string := example_grammar;
     thread_key := Some "t";
     pool := {| accounted := 1; membership := InPool |};
     worker := 1;
     tasks := {[ "t" := 7; "u" := 8 ]};
     task_state := {[ 7 := "processing" ]};
     loop := [];
     cache := {| cached := None; connections := 0 |};
     scheduler_latency := Some (1 # 2)%Q;
     warnings := [] |}.

(** The same process seen from another thread. *)
Definition set_thread (key : option Key) (p : Pool) (w : World) : World :=
  {| config := config w; duration_string := duration_string w;
     thread_key := key; pool := p; worker := worker w;
     tasks := tasks w; task_state := task_state w; loop := loop w;
     cache := cache w; scheduler_latency := scheduler_latency w;
     warnings := warnings w |}.

(** ... from the pool thread on which task [key] has just been started, *)
Definition start_task (key : Key) (w : World) : World :=
  set_thread (Some key)
    {| accounted := S (accounted (pool w)); membership := InPool |} w.

(** ... and from a thread that runs no task. *)
Definition off_task (w : World) : World :=
  set_thread None
    {| accounted := accounted (pool w); membership := Outside |} w.

Definition off_task_world : World := off_task example_world.

(** Caller blocks for the examples. *)
Definition block_ok : @block World := fun _ w => (Returns tt, w).
Definition block_raises : @block World := fun _ w => (Raises (BlockError 0), w).

End Runtime.

(** ** Reading the result of a run *)

Definition result_of {A W : Type} (r : A * W * list Event) : A := r.1.1.
Definition world_of {A W : Type} (r : A * W * list Event) : W := r.1.2.
Definition trace_of {A W : Type} (r : A * W * list Event) : list Event := r.2.

(** The call [c] was made, whether it returned or raised. *)
Definition called (c : Call) (t : list Event) : Prop :=
  In (Returned c) t \/ exists e, In (Raised c e) t.

(** Calls that resolve the timeout, the worker and the client. *)
Definition is_resolution (c : Call) : bool :=
  is_config_get c || is_parse c || is_get_worker c || is_get_client c.

(** The events of [dask.config.get], present exactly when the [timeout]
    argument is [None]. *)
Definition consulted (timeout : option duration) : list Event :=
  match timeout with
  | None => [Returned (ConfigGet "distributed.comm.timeouts.connect")]
  | Some _ => []
  end.

(** The calls of a trace, in order. *)
Definition calls (t : list Event) : list Call :=
  omap (fun ev => match ev with
                  | Returned c | Raised c _ => Some c
                  | Yielded _ => None
                  end) t.

(** Every event satisfying [q] comes after some event satisfying [p]. *)
Definition preceded_by (p q : Event -> bool) (t : list Event) : Prop :=
  forall pre ev post,
    t = pre ++ ev :: post -> q ev = true -> existsb p pre = true.

(** The same, as a check that runs along the trace; [seen] tells whether an
    event satisfying [p] has been met. *)
Fixpoint check_preceded (p q : Event -> bool) (seen : bool) (t : list Event)
  : bool :=
  match t with
  | [] => true
  | ev :: t' =>
      (negb (q ev) || seen) && check_preceded p q (seen || p ev) t'
  end.

Definition returned (p : Call -> bool) (ev : Event) : bool :=
  match ev with
  | Returned c => p c
  | _ => false
  end.

Definition raised (p : Call -> bool) (ev : Event) : bool :=
  match ev with
  | Raised c _ => p c
  | _ => false
  end.

(** The two reads that resolve the task record: [thread_state.key] and
    [worker.tasks[...]]. *)
Definition is_task_lookup (c : Call) : bool :=
  match c with
  | ThreadStateKey | TasksGetItem _ _ => true
  | _ => false
  end.

Definition is_thread_state_key (c : Call) : bool :=
  match c with ThreadStateKey => true | _ => false end.
Definition is_tasks_getitem (c : Call) : bool :=
  match c with TasksGetItem _ _ => true | _ => false end.

(** ** Proof steps *)

Ltac unfold_all :=
  unfold result_of, world_of, trace_of, with_, cm_enter, cm_exit, throw,
    worker_client_call, local_client, worker_client, config_get,
    parse_timedelta, get_worker, get_client, secede, rejoin,
    thread_state_key, tasks_getitem, add_callback, warn, yield, call,
    called, consulted, count, mbind, mret, gen_mbind, gen_ret;
  simpl.

(* case on what the next external call does *)
Ltac step handle :=
  match goal with
  | |- context [handle ?c ?w] =>
      let x := fresh "x" in
      let e := fresh "e" in
      let w' := fresh "w" in
      let E := fresh "E" in
      destruct (handle c w) as [[x|e] w'] eqn:E; simpl
  end.

(* case on what the caller's block does *)
Ltac run_block body :=
  match goal with
  | |- context [body ?c ?w] =>
      let w' := fresh "w" in
      let e := fresh "exc" in
      destruct (body c w) as [[[]|e] w'] eqn:?; simpl
  end.

Ltac split_decide :=
  match goal with
  | |- context [decide (?a = ?b)] => destruct (decide (a = b)); simpl
  end.

Ltac crunch handle body :=
  unfold_all; repeat (first [step handle | run_block body | split_decide]).

(* facts about a trace that is known event by event *)
Ltac trace_facts :=
  repeat match goal with
  | |- _ /\ _ => split
  | |- forall _, _ => intro
  | H : In _ _ |- _ => simpl in H
  | H : _ \/ _ |- _ => destruct H
  | H : exists _, _ |- _ => destruct H
  | H : False |- _ => destruct H
  | H : Returned _ = Returned _ |- _ => inversion H; clear H; subst
  | H : Raised _ _ = Raised _ _ |- _ => inversion H; clear H; subst
  | H : Yielded _ = Yielded _ |- _ => inversion H; clear H; subst
  | H : Returned _ = _ |- _ => discriminate H
  | H : Raised _ _ = _ |- _ => discriminate H
  | H : Yielded _ = _ |- _ => discriminate H
  | |- ~ _ => intro
  end; try reflexivity; try congruence.

(* the runtime's collaborators, unfolded, and a case on the innermost test *)
Ltac unfold_runtime :=
  unfold_all;
  unfold Runtime.config_get, Runtime.parse_timedelta, Runtime.get_worker,
    Runtime.get_client, Runtime.secede, Runtime.rejoin,
    Runtime.thread_state_key, Runtime.tasks_getitem, Runtime.add_callback,
    Runtime.warn, Runtime.effective_timeout;
  simpl.

Ltac inner_case :=
  match goal with
  | |- context [match ?x with _ => _ end] =>
      lazymatch x with
      | context [match _ with _ => _ end] => fail
      | _ => destruct x eqn:?; simpl
      end
  end.

Ltac runtime_cases := unfold_runtime; repeat inner_case.

(** * Properties that hold whatever the collaborators do *)

Section Properties.
Context {W : Type}.
Variable handle : forall c : Call, W -> outcome (ret c) * W.

(** C2.  With [separate_thread=False] the context manager neither
    secedes nor rejoins and posts nothing to the control loop; every call
    it makes, on entry and on exit alike, resolves the timeout, the
    worker or the client; and whenever the client is handed to the block,
    what happened before is exactly: the default looked up if no timeout
    was given, the timeout parsed, the worker resolved, the client
    obtained. *)
Theorem same_thread_frame (timeout : option duration) (body : block) (w : W) :
  let t := trace_of (with_ handle (worker_client_call timeout false) body w) in
  count is_secede t = 0 /\
  count is_rejoin t = 0 /\
  count is_add_callback t = 0 /\
  forallb (fun ev => is_yield ev || is_call_of is_resolution ev) t = true /\
  forall y, In (Yielded y) t ->
    exists d q,
      t = consulted timeout ++
          [Returned (ParseTimedelta d "s"); Returned GetWorker;
           Returned (GetClient q); Yielded y].
Proof.
  destruct timeout as [d|]; crunch handle body; trace_facts; eauto.
Qed.

Lemma check_preceded_sound (p q : Event -> bool) (t : list Event) :
  forall seen pre0,
    existsb p pre0 = seen ->
    check_preceded p q seen t = true ->
    forall pre ev post,
      t = pre ++ ev :: post -> q ev = true -> existsb p (pre0 ++ pre) = true.
Proof.
  induction t as [|a t IH]; intros seen pre0 Hseen Hchk pre ev post Ht Hq.
  - destruct pre; discriminate.
  - simpl in Hchk. apply andb_true_iff in Hchk as [Hhere Hrest].
    destruct pre as [|b pre]; simpl in Ht; inversion Ht; subst.
    + rewrite Hq in Hhere. simpl in Hhere. rewrite app_nil_r.
      exact Hhere.
    + replace (pre0 ++ b :: pre) with ((pre0 ++ [b]) ++ pre)
        by (rewrite <- app_assoc; reflexivity).
      eapply (IH (existsb p pre0 || p b) (pre0 ++ [b])); eauto.
      rewrite existsb_app. simpl. rewrite orb_false_r. reflexivity.
Qed.

Lemma check_preceded_by (p q : Event -> bool) (t : list Event) :
  check_preceded p q false t = true -> preceded_by p q t.
Proof.
  intros H pre ev post Ht Hq.
  exact (check_preceded_sound p q t false [] eq_refl H pre ev post Ht Hq).
Qed.

(** C3.  If [get_worker] or [get_client] raises, with whatever error,
    that error is what the [with] statement raises; the block is never
    entered (no client is handed over, and the outcome is the same
    whatever the block is); and [secede] is not called.  On every run, a
    call of [secede] comes after [get_client] has returned. *)
Theorem acquisition_failure_surfaces (timeout : option duration)
    (separate_thread : bool) (body : block) (w : W) :
  let r := with_ handle (worker_client_call timeout separate_thread) body w in
  (forall e,
      In (Raised GetWorker e) (trace_of r) \/
      (exists q, In (Raised (GetClient q) e) (trace_of r)) ->
      result_of r = Raises e /\
      (forall y, ~ In (Yielded y) (trace_of r)) /\
      count is_secede (trace_of r) = 0 /\
      forall body' : block,
        with_ handle (worker_client_call timeout separate_thread) body' w = r) /\
  preceded_by (returned is_get_client) (is_call_of is_secede) (trace_of r).
Proof.
  split; [|apply check_preceded_by];
    destruct timeout as [d|], separate_thread; crunch handle body;
    trace_facts.
Qed.

(** [get_worker] is called on both settings of [separate_thread], as soon
    as the timeout is resolved.  If it raises, with whatever error, that
    error is what the [with] statement raises, no client is handed to the
    block, and neither [get_client] nor [secede] is called.  On every run,
    a call of [get_client] or [secede] comes after [get_worker] has
    returned. *)
Lemma worker_resolved_first (timeout : option duration)
    (separate_thread : bool) (body : block) (w : W) :
  let r := with_ handle (worker_client_call timeout separate_thread) body w in
  (forall d, In (Returned (ParseTimedelta d "s")) (trace_of r) ->
             count is_get_worker (trace_of r) = 1) /\
  (forall e,
      In (Raised GetWorker e) (trace_of r) ->
      result_of r = Raises e /\
      (forall y, ~ In (Yielded y) (trace_of r)) /\
      count is_get_client (trace_of r) = 0 /\
      count is_secede (trace_of r) = 0) /\
  preceded_by (returned is_get_worker)
    (fun ev => is_call_of is_get_client ev || is_call_of is_secede ev)
    (trace_of r).
Proof.
  split; [|split; [|apply check_preceded_by]];
    destruct timeout as [d|], separate_thread; crunch handle body;
    trace_facts.
Qed.

(** C10.  A timeout argument that is not [None] is never replaced by the
    configured default, be it falsy like [0] or [''] or not:
    [dask.config.get] is not called and the first call is the parser, on
    the argument as given.  With [None], the first call is
    [dask.config.get], and the parser is then given what it returned. *)
Theorem default_only_for_None (separate_thread : bool) (body : block) (w : W) :
  (forall v : duration,
      let t := trace_of (with_ handle
                 (worker_client_call (Some v) separate_thread) body w) in
      count is_config_get t = 0 /\
      exists rest, calls t = ParseTimedelta v "s" :: rest) /\
  let t := trace_of (with_ handle
             (worker_client_call None separate_thread) body w) in
  match handle (ConfigGet "distributed.comm.timeouts.connect") w with
  | (Returns d, _) =>
      exists rest,
        calls t = ConfigGet "distributed.comm.timeouts.connect"
                  :: ParseTimedelta d "s" :: rest
  | (Raises e, _) =>
      t = [Raised (ConfigGet "distributed.comm.timeouts.connect") e]
  end.
Proof.
  split; [intros v|]; destruct separate_thread; crunch handle body;
    trace_facts; eauto.
Qed.

(** [worker_client] itself never warns. *)
Lemma worker_client_never_warns (timeout : option duration)
    (separate_thread : bool) (body : block) (w : W) :
  count is_warn
    (trace_of (with_ handle (worker_client_call timeout separate_thread)
                 body w)) = 0.
Proof.
  destruct timeout as [d|], separate_thread; crunch handle body; reflexivity.
Qed.

(** C6.  A call of [local_client] makes one external call, the warning,
    whose text names [worker_client], and returns the very context
    manager that [worker_client] returns for the same arguments.  Used in
    a [with] statement it therefore behaves, from the world the warning
    left, exactly as [worker_client] does: same outcome, same final
    world, same events after the single warning. *)
Theorem local_client_forwards (timeout : option duration)
    (separate_thread : bool) (body : block) (w w1 : W) :
  handle (Warn deprecation_message) w = (Returns tt, w1) ->
  let alias := with_ handle (local_client timeout separate_thread) body w in
  let direct :=
    with_ handle (worker_client_call timeout separate_thread) body w1 in
  resume handle (local_client timeout separate_thread) w =
    (Finished (worker_client timeout separate_thread), w1,
     [Returned (Warn deprecation_message)]) /\
  resume handle (worker_client_call timeout separate_thread) w1 =
    (Finished (worker_client timeout separate_thread), w1, []) /\
  alias = (result_of direct, world_of direct,
           Returned (Warn deprecation_message) :: trace_of direct) /\
  count is_warn (trace_of alias) = 1 /\
  String.substring 26 13 deprecation_message = "worker_client".
Proof.
  intros Hwarn alias direct.
  assert (Halias : alias = (result_of direct, world_of direct,
            Returned (Warn deprecation_message) :: trace_of direct)).
  { subst alias direct.
    unfold with_, local_client, worker_client_call, warn, call, result_of,
      world_of, trace_of.
    generalize (cm_exit handle). generalize (cm_enter handle).
    intros enter leave. simpl. rewrite Hwarn. simpl.
    destruct (enter (worker_client timeout separate_thread) w1)
      as [[[[c k]|e] w2] t1]; simpl; [|reflexivity].
    destruct (body c w2) as [[[]|exc] w3]; simpl.
    - destruct (leave k None w3) as [[[b|e] w4] t3]; reflexivity.
    - destruct (leave k (Some exc) w3) as [[[[|]|e] w4] t3];
        reflexivity. }
  repeat split.
  - unfold local_client, warn, call. simpl. rewrite Hwarn. reflexivity.
  - exact Halias.
  - rewrite Halias. unfold trace_of at 1. simpl.
    change (count is_warn (Returned (Warn deprecation_message) :: trace_of direct))
      with (S (count is_warn (trace_of direct))).
    subst direct. rewrite worker_client_never_warns. reflexivity.
Qed.

(** What the generator has done when [__enter__] returns with
    [separate_thread=True], and what is left of it: the call of
    [rejoin]. *)
Lemma enter_separate_thread_trace (timeout : option duration) (w w' : W)
    (y : Client) (k : generator) (t : list Event) :
  cm_enter handle (worker_client timeout true) w = (Returns (y, k), w', t) ->
  k = rejoin /\
  exists d q wk key ts,
    t = consulted timeout ++
        [Returned (ParseTimedelta d "s"); Returned GetWorker;
         Returned (GetClient q); Returned Secede; Returned ThreadStateKey;
         Returned (TasksGetItem wk key);
         Returned (AddCallback wk (Transition ts "long-running"));
         Yielded y].
Proof.
  destruct timeout as [d|]; unfold_all; repeat step handle;
    intros H; inversion H; subst; (split; [reflexivity|]);
    repeat eexists.
Qed.

(** The block raises: [__exit__] throws the exception into the generator
    at its [yield], and the [with] statement ends in the world the block
    left, with no event after the [yield]: [rejoin] is not called. *)
Lemma rejoin_skipped_when_block_raises (timeout : option duration)
    (body : block) (w w1 w2 : W) (y : Client) (k : generator)
    (t1 : list Event) (exc : Exn) :
  cm_enter handle (worker_client timeout true) w = (Returns (y, k), w1, t1) ->
  body y w1 = (Raises exc, w2) ->
  with_ handle (worker_client_call timeout true) body w = (Raises exc, w2, t1) /\
  count is_secede t1 = 1 /\
  count is_rejoin t1 = 0.
Proof.
  intros Henter Hbody.
  destruct (enter_separate_thread_trace _ _ _ _ _ _ Henter)
    as [-> (d & q & wk & key & ts & ->)].
  split.
  - unfold with_, worker_client_call. simpl. rewrite Henter, Hbody.
    unfold cm_exit, throw. destruct (decide (exc = exc)); [|congruence].
    rewrite app_nil_r. reflexivity.
  - destruct timeout; split; reflexivity.
Qed.

(** The block completes: [__exit__] resumes the generator, which calls
    [rejoin]. *)
Lemma rejoin_called_when_block_completes (timeout : option duration)
    (body : block) (w w1 w2 : W) (y : Client) (k : generator)
    (t1 : list Event) :
  cm_enter handle (worker_client timeout true) w = (Returns (y, k), w1, t1) ->
  body y w1 = (Returns tt, w2) ->
  with_ handle (worker_client_call timeout true) body w =
    match handle Rejoin w2 with
    | (Returns _, w3) => (Returns tt, w3, t1 ++ [Returned Rejoin])
    | (Raises e, w3) => (Raises e, w3, t1 ++ [Raised Rejoin e])
    end.
Proof.
  intros Henter Hbody.
  destruct (enter_separate_thread_trace _ _ _ _ _ _ Henter) as [-> _].
  unfold with_, worker_client_call. simpl. rewrite Henter, Hbody.
  unfold cm_exit, rejoin, call. simpl.
  destruct (handle Rejoin w2) as [[[]|e] w3]; reflexivity.
Qed.

End Properties.

(** * Properties of the worker runtime *)

Section RuntimeProperties.

(** When the control loop takes its turn, the callback posted last decides
    the state of its task record. *)
Lemma run_loop_last (w : Runtime.World) (l : list Callback) (ts : TaskRef)
    (finish : string) :
  Runtime.loop w = l ++ [Transition ts finish] ->
  Runtime.task_state (Runtime.run_loop w) !! ts = Some finish.
Proof.
  intros H. unfold Runtime.run_loop. rewrite H, foldl_app. simpl.
  apply lookup_insert_eq.
Qed.

(** [get_client] returns the cached client once there is one. *)
Lemma get_client_idempotent (q q' : Q) (w w' : Runtime.World) (c : Client) :
  Runtime.get_client q w = (Returns c, w') ->
  Runtime.get_client q' w' = (Returns c, w').
Proof.
  unfold Runtime.get_client. repeat inner_case;
    intros H; inversion H; subst; clear H; simpl in *;
    repeat match goal with
    | H : ?x = _ |- context [?x] => rewrite H
    end; simpl; try reflexivity; try congruence.
Qed.

(** The world in which [__enter__] returns with [separate_thread=True]. *)
Lemma enter_separate_thread_runtime (timeout : option duration)
    (w w1 : Runtime.World) (y : Client) (k : generator) (t : list Event) :
  cm_enter Runtime.handle (worker_client timeout true) w
    = (Returns (y, k), w1, t) ->
  exists d q key ts,
    t = consulted timeout ++
        [Returned (ParseTimedelta d "s"); Returned GetWorker;
         Returned (GetClient q); Returned Secede; Returned ThreadStateKey;
         Returned (TasksGetItem (Runtime.worker w) key);
         Returned (AddCallback (Runtime.worker w)
                     (Transition ts "long-running"));
         Yielded y] /\
    Runtime.tasks w !! key = Some ts /\
    Runtime.loop w1 = Runtime.loop w ++ [Transition ts "long-running"] /\
    Runtime.task_state w1 = Runtime.task_state w /\
    Runtime.pool w1 =
      match Runtime.membership (Runtime.pool w) with
      | Runtime.InPool =>
          {| Runtime.accounted := pred (Runtime.accounted (Runtime.pool w));
             Runtime.membership := Runtime.Seceded |}
      | _ => Runtime.pool w
      end.
Proof.
  destruct timeout; runtime_cases;
    intros H; inversion H; subst; clear H; try congruence;
    eexists _, _, _, _; repeat split; try reflexivity; try eassumption.
Qed.

(** C4.  When [__enter__] returns with [separate_thread=True], the
    generator has, in this order and before the client is handed to the
    block: seen [secede] return, read the thread's task key, looked the
    task record up, and seen [add_callback] return for the transition of
    that record to ['long-running'].  The transition is pending in the
    control loop's queue, not run: no task state has changed yet, and it is
    the loop's next turn that makes the record long-running.  A thread that
    held a slot holds none any more. *)
Theorem secede_and_post_before_yield (timeout : option duration)
    (w w1 : Runtime.World) (y : Client) (k : generator) (t : list Event) :
  cm_enter Runtime.handle (worker_client timeout true) w
    = (Returns (y, k), w1, t) ->
  exists d q key ts,
    t = consulted timeout ++
        [Returned (ParseTimedelta d "s"); Returned GetWorker;
         Returned (GetClient q); Returned Secede; Returned ThreadStateKey;
         Returned (TasksGetItem (Runtime.worker w) key);
         Returned (AddCallback (Runtime.worker w)
                     (Transition ts "long-running"));
         Yielded y] /\
    Runtime.tasks w !! key = Some ts /\
    Runtime.loop w1 = Runtime.loop w ++ [Transition ts "long-running"] /\
    Runtime.task_state w1 = Runtime.task_state w /\
    Runtime.task_state (Runtime.run_loop w1) !! ts = Some "long-running" /\
    (Runtime.membership (Runtime.pool w) = Runtime.InPool ->
     Runtime.pool w1 =
       {| Runtime.accounted := pred (Runtime.accounted (Runtime.pool w));
          Runtime.membership := Runtime.Seceded |}).
Proof.
  intros H.
  destruct (enter_separate_thread_runtime _ _ _ _ _ _ H)
    as (d & q & key & ts & Ht & Hts & Hloop & Hstate & Hpool).
  exists d, q, key, ts.
  repeat split; try assumption.
  - exact (run_loop_last _ _ _ _ Hloop).
  - intros Hin. rewrite Hin in Hpool. exact Hpool.
Qed.

(** The client [__enter__] hands over is the process's cached client; if
    one was cached before, it is that one and the cache is untouched. *)
Lemma enter_returns_cached_client (timeout : option duration)
    (separate_thread : bool) (w w1 : Runtime.World) (y : Client)
    (k : generator) (t : list Event) :
  cm_enter Runtime.handle (worker_client timeout separate_thread) w
    = (Returns (y, k), w1, t) ->
  Runtime.cached (Runtime.cache w1) = Some y /\
  forall c, Runtime.cached (Runtime.cache w) = Some c ->
            y = c /\ Runtime.cache w1 = Runtime.cache w.
Proof.
  destruct timeout, separate_thread; runtime_cases;
    intros H; inversion H; subst; clear H; simpl;
    (split; [first [assumption | reflexivity]
            | intros c Hc; split; congruence]).
Qed.

(** C7.  Two invocations in one worker process, the second from any later
    state of the process in which the client cache is what the first left
    (another task, another thread, other arguments): both blocks receive
    the same client object, and the second invocation opens no connection
    and leaves the cache as it found it. *)
Theorem same_cached_client (timeout1 timeout2 : option duration)
    (separate1 separate2 : bool) (w1 w1' w2 w2' : Runtime.World)
    (c1 c2 : Client) (k1 k2 : generator) (t1 t2 : list Event) :
  cm_enter Runtime.handle (worker_client timeout1 separate1) w1
    = (Returns (c1, k1), w1', t1) ->
  Runtime.cache w2 = Runtime.cache w1' ->
  cm_enter Runtime.handle (worker_client timeout2 separate2) w2
    = (Returns (c2, k2), w2', t2) ->
  c2 = c1 /\
  Runtime.cached (Runtime.cache w2') = Some c1 /\
  Runtime.connections (Runtime.cache w2')
    = Runtime.connections (Runtime.cache w1').
Proof.
  intros H1 Hcache H2.
  destruct (enter_returns_cached_client _ _ _ _ _ _ _ H1) as [Hc1 _].
  destruct (enter_returns_cached_client _ _ _ _ _ _ _ H2) as [_ Hc2].
  rewrite <- Hcache in Hc1.
  destruct (Hc2 c1 Hc1) as [-> Hsame].
  rewrite Hsame, Hcache. rewrite Hcache in Hc1. auto.
Qed.

(** C5.  Let [d] be the argument if one is given, the configured default
    otherwise.  The parser is called on [d], right after the default has
    been looked up if it had to be.  If it returns [q] seconds, [q] is the
    timeout of every [get_client] call, and there is one as soon as the
    thread runs a task.  If it fails, its error is what [__enter__] raises
    and nothing is called after it: no default takes the place of the
    value.  The parser returns a number unchanged, maps a duration string
    to the seconds it denotes and raises [ParseError] on any other
    string. *)
Theorem timeout_resolution (timeout : option duration)
    (separate_thread : bool) (w : Runtime.World) (d : duration) :
  Runtime.effective_timeout timeout w = Some d ->
  let r := cm_enter Runtime.handle (worker_client timeout separate_thread) w in
  (forall q, (Runtime.parse_timedelta d "s" w).1 = Returns q ->
     (exists rest,
        trace_of r = consulted timeout ++
                     Returned (ParseTimedelta d "s") :: rest) /\
     (forall q', called (GetClient q') (trace_of r) -> q' = q) /\
     (Runtime.thread_key w <> None -> called (GetClient q) (trace_of r))) /\
  (forall e, (Runtime.parse_timedelta d "s" w).1 = Raises e ->
     result_of r = Raises e /\
     trace_of r = consulted timeout ++ [Raised (ParseTimedelta d "s") e]) /\
  (forall n, (Runtime.parse_timedelta (Num n) "s" w).1 = Returns n) /\
  (forall s q, Runtime.duration_string w s = Some q ->
     (Runtime.parse_timedelta (Str s) "s" w).1 = Returns q) /\
  (forall s, Runtime.duration_string w s = None ->
     (Runtime.parse_timedelta (Str s) "s" w).1 = Raises (ParseError s)).
Proof.
  intros Hd r.
  split; [|split; [|split; [|split]]].
  - revert Hd. subst r.
    destruct timeout, separate_thread; runtime_cases;
      intros Hd ? Hq; simplify_eq; simpl in *; simplify_eq;
      (split; [eexists; reflexivity|]);
      (split; [intros ? Hc; trace_facts
              | intros Hk; first [congruence
                                 | left; simpl; tauto
                                 | right; eexists; simpl; tauto]]).
  - revert Hd. subst r.
    destruct timeout, separate_thread; runtime_cases;
      intros Hd ? He; simplify_eq; simpl in *; simplify_eq;
      split; reflexivity.
  - reflexivity.
  - intros s q Hs. unfold Runtime.parse_timedelta. rewrite Hs. reflexivity.
  - intros s Hs. unfold Runtime.parse_timedelta. rewrite Hs. reflexivity.
Qed.

(** How [__enter__] can end with [separate_thread=True] when the thread's
    task is in [worker.tasks]: no task lookup raises, and either the
    transition of the task's record is queued and the client handed over,
    or [secede] was never called. *)
Lemma enter_with_task_present (timeout : option duration)
    (w : Runtime.World) (key : Key) (ts : TaskRef) :
  Runtime.thread_key w = Some key ->
  Runtime.tasks w !! key = Some ts ->
  let r := cm_enter Runtime.handle (worker_client timeout true) w in
  forallb (fun ev => negb (raised is_task_lookup ev)) (trace_of r) = true /\
  ((exists y k pre,
      result_of r = Returns (y, k) /\
      trace_of r = pre ++
        [Returned ThreadStateKey;
         Returned (TasksGetItem (Runtime.worker w) key);
         Returned (AddCallback (Runtime.worker w)
                     (Transition ts "long-running"));
         Yielded y] /\
      Runtime.loop (world_of r) =
        Runtime.loop w ++ [Transition ts "long-running"]) \/
   forallb (fun ev => negb (is_call_of is_secede ev)) (trace_of r) = true).
Proof.
  intros Hkey Hts r. revert Hkey Hts. subst r.
  destruct timeout; runtime_cases; intros Hkey Hts; simplify_eq;
    (split; [reflexivity|]);
    first
      [ right; reflexivity
      | left; eexists _, _, _; split; [reflexivity|];
        split; [|reflexivity];
        first [ instantiate (1 := [_; _; _; _; _]); reflexivity
              | instantiate (1 := [_; _; _; _]); reflexivity ] ].
Qed.

(** C9.  Suppose the calling thread runs the task of key [key] and
    [worker.tasks] maps [key] to the record [ts].  Then neither the read of
    [thread_state.key] nor the subscript [worker.tasks[...]] raises; and
    once [secede] has been called, [__enter__] returns, having looked the
    record up before [add_callback] was called and having queued the
    transition of [ts] itself.  Whatever the process has become when the
    control loop takes its turn on that queue, notably whatever
    [worker.tasks] then maps [key] to, the record made long-running is
    [ts]. *)
Theorem task_record_resolved_eagerly (timeout : option duration)
    (w : Runtime.World) (key : Key) (ts : TaskRef) :
  Runtime.thread_key w = Some key ->
  Runtime.tasks w !! key = Some ts ->
  let r := cm_enter Runtime.handle (worker_client timeout true) w in
  (forall e, ~ In (Raised ThreadStateKey e) (trace_of r)) /\
  (forall wk k e, ~ In (Raised (TasksGetItem wk k) e) (trace_of r)) /\
  (called Secede (trace_of r) ->
   exists y k pre,
     result_of r = Returns (y, k) /\
     trace_of r = pre ++
       [Returned ThreadStateKey;
        Returned (TasksGetItem (Runtime.worker w) key);
        Returned (AddCallback (Runtime.worker w)
                    (Transition ts "long-running"));
        Yielded y] /\
     Runtime.loop (world_of r) =
       Runtime.loop w ++ [Transition ts "long-running"] /\
     forall w2 : Runtime.World,
       Runtime.loop w2 = Runtime.loop (world_of r) ->
       Runtime.task_state (Runtime.run_loop w2) !! ts = Some "long-running").
Proof.
  intros Hkey Hts r.
  destruct (enter_with_task_present timeout w key ts Hkey Hts)
    as [Hlookup Hshape].
  fold r in Hlookup, Hshape.
  assert (Hno : forall ev, In ev (trace_of r) ->
                           raised is_task_lookup ev = false).
  { intros ev Hin.
    pose proof (proj1 (forallb_forall _ _) Hlookup ev Hin) as H.
    apply negb_true_iff in H. exact H. }
  split; [|split].
  - intros e Hin. apply Hno in Hin. discriminate Hin.
  - intros wk k e Hin. apply Hno in Hin. discriminate Hin.
  - intros Hsecede.
    destruct Hshape as [(y & k & pre & Hres & Htr & Hloop) | Hnever].
    + exists y, k, pre. repeat split; try assumption.
      intros w2 Hw2. apply run_loop_last with (l := Runtime.loop w).
      rewrite Hw2. exact Hloop.
    + exfalso.
      assert (Hev : forall ev, In ev (trace_of r) ->
                               is_call_of is_secede ev = false).
      { intros ev Hin.
        pose proof (proj1 (forallb_forall _ _) Hnever ev Hin) as H.
        apply negb_true_iff in H. exact H. }
      destruct Hsecede as [Hin | [e Hin]]; apply Hev in Hin;
        discriminate Hin.
Qed.

End RuntimeProperties.

(** * The exit paths of the scope *)

Section ExitPaths.

(** The block completes: [rejoin] runs, and a thread that held a slot on
    entry holds one again on exit. *)
Lemma slot_restored_when_block_completes (timeout : option duration)
    (body : @block Runtime.World) (w w1 w2 : Runtime.World) (y : Client)
    (k : generator) (t1 : list Event) :
  Runtime.membership (Runtime.pool w) = Runtime.InPool ->
  1 <= Runtime.accounted (Runtime.pool w) ->
  cm_enter Runtime.handle (worker_client timeout true) w
    = (Returns (y, k), w1, t1) ->
  body y w1 = (Returns tt, w2) ->
  Runtime.pool w2 = Runtime.pool w1 ->
  let r := with_ Runtime.handle (worker_client_call timeout true) body w in
  result_of r = Returns tt /\
  trace_of r = t1 ++ [Returned Rejoin] /\
  Runtime.pool (world_of r) = Runtime.pool w.
Proof.
  intros Hin Hacc Henter Hbody Hpool r. subst r.
  rewrite (rejoin_called_when_block_completes Runtime.handle
             _ _ _ _ _ _ _ _ Henter Hbody).
  destruct (enter_separate_thread_runtime _ _ _ _ _ _ Henter)
    as (d & q & key & ts & _ & _ & _ & _ & Hp1).
  rewrite Hin in Hp1. simpl. unfold Runtime.rejoin.
  rewrite Hpool, Hp1. simpl.
  unfold result_of, world_of, trace_of. simpl.
  repeat split.
  destruct (Runtime.pool w) as [n m]. simpl in *. subst m.
  f_equal. lia.
Qed.

(** The block raises: [rejoin] does not run, and a thread that held a slot
    on entry leaves the scope seceded, the pool counting one thread less
    than before. *)
Lemma slot_lost_when_block_raises (timeout : option duration)
    (body : @block Runtime.World) (w w1 w2 : Runtime.World) (y : Client)
    (k : generator) (t1 : list Event) (exc : Exn) :
  Runtime.membership (Runtime.pool w) = Runtime.InPool ->
  1 <= Runtime.accounted (Runtime.pool w) ->
  cm_enter Runtime.handle (worker_client timeout true) w
    = (Returns (y, k), w1, t1) ->
  body y w1 = (Raises exc, w2) ->
  Runtime.pool w2 = Runtime.pool w1 ->
  let r := with_ Runtime.handle (worker_client_call timeout true) body w in
  result_of r = Raises exc /\
  count is_secede (trace_of r) = 1 /\
  count is_rejoin (trace_of r) = 0 /\
  Runtime.membership (Runtime.pool (world_of r)) = Runtime.Seceded /\
  S (Runtime.accounted (Runtime.pool (world_of r)))
    = Runtime.accounted (Runtime.pool w).
Proof.
  intros Hin Hacc Henter Hbody Hpool r. subst r.
  destruct (rejoin_skipped_when_block_raises Runtime.handle
              _ _ _ _ _ _ _ _ _ Henter Hbody) as (-> & Hs & Hr).
  destruct (enter_separate_thread_runtime _ _ _ _ _ _ Henter)
    as (d & q & key & ts & _ & _ & _ & _ & Hp1).
  rewrite Hin in Hp1.
  unfold result_of, world_of, trace_of. simpl.
  rewrite Hpool, Hp1. simpl.
  repeat split; try assumption. lia.
Qed.

(** C1.  [worker_client(separate_thread=True)] entered from the one thread
    of a pool of one, by a task whose block raises: the exception reaches
    the caller, [secede] has been called once and [rejoin] not at all, and
    the pool that counted one thread before the scope counts none after
    it, the thread being left seceded. *)
Theorem rejoin_missed_when_block_raises :
  let w := Runtime.example_world in
  let r := with_ Runtime.handle (worker_client_call None true)
             Runtime.block_raises w in
  result_of r = Raises (BlockError 0) /\
  count is_secede (trace_of r) = 1 /\
  count is_rejoin (trace_of r) = 0 /\
  Runtime.accounted (Runtime.pool w) = 1 /\
  Runtime.accounted (Runtime.pool (world_of r)) = 0 /\
  Runtime.membership (Runtime.pool (world_of r)) = Runtime.Seceded.
Proof.
  vm_compute. repeat split.
Qed.

End ExitPaths.

(** * Off a worker task *)

Section OffTask.

(** C8.  From a thread that runs no worker task, on both settings of
    [separate_thread], whatever the timeout and the block: the [with]
    statement fails, no client is handed to the block, and neither
    [get_client] nor [secede] is called.  As soon as the timeout has been
    resolved, [get_worker] is called, once, it raises [NotInTaskContext],
    and that is the error of the [with] statement; this is the case
    whenever the timeout, given or configured, parses.  On every run a
    call of [get_client] or [secede] comes after [get_worker] has
    returned. *)
Theorem off_task_invocation_fails (timeout : option duration)
    (separate_thread : bool) (body : @block Runtime.World)
    (w : Runtime.World) :
  Runtime.thread_key w = None ->
  let r := with_ Runtime.handle
             (worker_client_call timeout separate_thread) body w in
  (exists e, result_of r = Raises e) /\
  (forall y, ~ In (Yielded y) (trace_of r)) /\
  count is_get_client (trace_of r) = 0 /\
  count is_secede (trace_of r) = 0 /\
  (forall d, In (Returned (ParseTimedelta d "s")) (trace_of r) ->
     count is_get_worker (trace_of r) = 1 /\
     In (Raised GetWorker NotInTaskContext) (trace_of r) /\
     result_of r = Raises NotInTaskContext) /\
  (forall d q,
     Runtime.effective_timeout timeout w = Some d ->
     (Runtime.parse_timedelta d "s" w).1 = Returns q ->
     result_of r = Raises NotInTaskContext) /\
  preceded_by (returned is_get_worker)
    (fun ev => is_call_of is_get_client ev || is_call_of is_secede ev)
    (trace_of r).
Proof.
  intros Hk r.
  assert (Hord : preceded_by (returned is_get_worker)
            (fun ev => is_call_of is_get_client ev || is_call_of is_secede ev)
            (trace_of r)).
  { exact (proj2 (proj2 (worker_resolved_first Runtime.handle timeout
                           separate_thread body w))). }
  assert (Hmain :
    (exists e, result_of r = Raises e) /\
    (forall y, ~ In (Yielded y) (trace_of r)) /\
    count is_get_client (trace_of r) = 0 /\
    count is_secede (trace_of r) = 0 /\
    (forall d, In (Returned (ParseTimedelta d "s")) (trace_of r) ->
       count is_get_worker (trace_of r) = 1 /\
       In (Raised GetWorker NotInTaskContext) (trace_of r) /\
       result_of r = Raises NotInTaskContext) /\
    (forall d q,
       Runtime.effective_timeout timeout w = Some d ->
       (Runtime.parse_timedelta d "s" w).1 = Returns q ->
       result_of r = Raises NotInTaskContext)).
  { clear Hord. revert Hk. subst r.
    destruct timeout as [d0|]; unfold_all;
      unfold Runtime.config_get, Runtime.parse_timedelta, Runtime.get_worker,
        Runtime.effective_timeout; simpl; intros Hk.
    all: repeat match goal with
         | |- context [match ?d with Num _ => _ | Str _ => _ end] =>
             destruct d; simpl
         | |- context [Runtime.duration_string ?w ?s] =>
             destruct (Runtime.duration_string w s) eqn:?; simpl
         | |- context [Runtime.config ?w !! ?k] =>
             destruct (Runtime.config w !! k) eqn:?; simpl
         end; try rewrite Hk; simpl.
    all: (split; [eexists; reflexivity|]).
    all: (split; [intros y Hy; simpl in Hy; intuition discriminate|]).
    all: (split; [reflexivity|]).
    all: (split; [reflexivity|]).
    all: split.
    all: try (intros d Hin; simpl in Hin;
              repeat match goal with
              | H : _ \/ _ |- _ => destruct H
              | H : False |- _ => destruct H
              | H : Returned _ = _ |- _ => discriminate H
              | H : Raised _ _ = _ |- _ => discriminate H
              end;
              repeat split; simpl; tauto).
    all: intros d q Hd Hq; simplify_eq; simpl in *;
         repeat match goal with
         | H : context [Runtime.duration_string ?w ?s],
           E : Runtime.duration_string ?w ?s = _ |- _ =>
             rewrite E in H; simpl in H
         end; first [reflexivity | discriminate]. }
  repeat (split; [apply Hmain|]). exact Hord.
Qed.

End OffTask.

(** * Runs of the example world *)

Section Runs.


(** [separate_thread=False], default timeout, the block completes. *)
Lemma same_thread_frame_witness :
  exists d q,
    trace_of (with_ Runtime.handle (worker_client_call None false)
                Runtime.block_ok Runtime.example_world) =
    consulted None ++
    [Returned (ParseTimedelta d "s"); Returned GetWorker;
     Returned (GetClient q); Yielded 1].
Proof.
  destruct (same_thread_frame Runtime.handle None Runtime.block_ok
              Runtime.example_world) as (_ & _ & _ & _ & H).
  apply (H 1). vm_compute. do 4 right. left. reflexivity.
Defined.

(** A timeout of zero seconds with no client cached: [get_client] raises
    [ConnectionTimeout]. *)
Lemma acquisition_failure_surfaces_witness :
  let r := with_ Runtime.handle (worker_client_call (Some (Num 0)) true)
             Runtime.block_ok Runtime.example_world in
  result_of r = Raises ConnectionTimeout /\
  (forall y, ~ In (Yielded y) (trace_of r)) /\
  count is_secede (trace_of r) = 0 /\
  forall body' : block,
    with_ Runtime.handle (worker_client_call (Some (Num 0)) true) body'
      Runtime.example_world = r.
Proof.
  intros r.
  destruct (acquisition_failure_surfaces Runtime.handle (Some (Num 0)) true
              Runtime.block_ok Runtime.example_world) as [H _].
  apply (H ConnectionTimeout). right. exists 0%Q.
  vm_compute. do 2 right. left. reflexivity.
Defined.

(** A thread that runs no task, [separate_thread=False], the default
    timeout. *)
Lemma off_task_invocation_fails_witness :
  let r := with_ Runtime.handle (worker_client_call None false)
             Runtime.block_ok Runtime.off_task_world in
  result_of r = Raises NotInTaskContext.
Proof.
  intros r.
  destruct (off_task_invocation_fails None false Runtime.block_ok
              Runtime.off_task_world eq_refl)
    as (_ & _ & _ & _ & _ & H & _).
  apply (H (Str "10s") 10%Q); vm_compute; reflexivity.
Defined.

(** The alias, used where [worker_client] would be. *)
Lemma local_client_forwards_witness :
  let w1 := Runtime.set_warnings [deprecation_message] Runtime.example_world in
  let alias := with_ Runtime.handle (local_client None true)
                 Runtime.block_ok Runtime.example_world in
  let direct := with_ Runtime.handle (worker_client_call None true)
                  Runtime.block_ok w1 in
  alias = (result_of direct, world_of direct,
           Returned (Warn deprecation_message) :: trace_of direct) /\
  count is_warn (trace_of alias) = 1.
Proof.
  intros w1 alias direct.
  destruct (local_client_forwards Runtime.handle None true Runtime.block_ok
              Runtime.example_world w1 eq_refl) as (_ & _ & H1 & H2 & _).
  split; [exact H1 | exact H2].
Defined.

(** The default timeout, a task thread, [separate_thread=True]. *)
Lemma secede_and_post_before_yield_witness :
  let r := cm_enter Runtime.handle (worker_client None true)
             Runtime.example_world in
  exists d q key ts,
    trace_of r = consulted None ++
        [Returned (ParseTimedelta d "s"); Returned GetWorker;
         Returned (GetClient q); Returned Secede; Returned ThreadStateKey;
         Returned (TasksGetItem (Runtime.worker Runtime.example_world) key);
         Returned (AddCallback (Runtime.worker Runtime.example_world)
                     (Transition ts "long-running"));
         Yielded 1] /\
    Runtime.tasks Runtime.example_world !! key = Some ts /\
    Runtime.loop (world_of r) =
      Runtime.loop Runtime.example_world ++ [Transition ts "long-running"] /\
    Runtime.task_state (world_of r) = Runtime.task_state Runtime.example_world /\
    Runtime.task_state (Runtime.run_loop (world_of r)) !! ts
      = Some "long-running" /\
    (Runtime.membership (Runtime.pool Runtime.example_world) = Runtime.InPool ->
     Runtime.pool (world_of r) =
       {| Runtime.accounted :=
            pred (Runtime.accounted (Runtime.pool Runtime.example_world));
          Runtime.membership := Runtime.Seceded |}).
Proof.
  intros r.
  apply (secede_and_post_before_yield None Runtime.example_world
           (world_of r) 1 rejoin (trace_of r)).
  vm_compute. reflexivity.
Defined.

(** The default ["10s"] resolves to ten seconds, and that is what
    [get_client] is given. *)
Lemma timeout_resolution_witness :
  called (GetClient 10)
    (trace_of (cm_enter Runtime.handle (worker_client None true)
                 Runtime.example_world)).
Proof.
  assert (Hd : Runtime.effective_timeout None Runtime.example_world
               = Some (Str "10s")) by (vm_compute; reflexivity).
  destruct (timeout_resolution None true Runtime.example_world (Str "10s") Hd)
    as [H _].
  destruct (H 10%Q) as (_ & _ & Hcalled).
  - vm_compute. reflexivity.
  - apply Hcalled. vm_compute. discriminate.
Defined.

(** Task ["t"] enters the scope and secedes; task ["u"] is started on the
    freed slot and enters the scope too, with a timeout of zero. *)
Lemma same_cached_client_witness :
  let r1 := cm_enter Runtime.handle (worker_client None true)
              Runtime.example_world in
  let w2 := Runtime.start_task "u" (world_of r1) in
  let r2 := cm_enter Runtime.handle (worker_client (Some (Num 0)) true) w2 in
  result_of r1 = Returns (1, rejoin) /\
  result_of r2 = Returns (1, rejoin) /\
  Runtime.cached (Runtime.cache (world_of r2)) = Some 1 /\
  Runtime.connections (Runtime.cache (world_of r2))
    = Runtime.connections (Runtime.cache (world_of r1)).
Proof.
  intros r1 w2 r2.
  assert (H1 : r1 = (Returns (1, rejoin), world_of r1, trace_of r1))
    by (vm_compute; reflexivity).
  assert (H2 : r2 = (Returns (1, rejoin), world_of r2, trace_of r2))
    by (vm_compute; reflexivity).
  destruct (same_cached_client None (Some (Num 0)) true true
              Runtime.example_world (world_of r1) w2 (world_of r2)
              1 1 rejoin rejoin (trace_of r1) (trace_of r2)
              H1 eq_refl H2) as (_ & Hc & Hn).
  split; [rewrite H1; reflexivity|].
  split; [rewrite H2; reflexivity|].
  split; [exact Hc | exact Hn].
Defined.

(** Task ["t"], whose record is object 7: the control loop's next turn
    makes record 7 long-running. *)
Lemma task_record_resolved_eagerly_witness :
  let r := cm_enter Runtime.handle (worker_client None true)
             Runtime.example_world in
  Runtime.task_state (Runtime.run_loop (world_of r)) !! 7
    = Some "long-running".
Proof.
  intros r.
  assert (Hts : Runtime.tasks Runtime.example_world !! "t" = Some 7)
    by (vm_compute; reflexivity).
  destruct (task_record_resolved_eagerly None Runtime.example_world "t" 7
              eq_refl Hts) as (_ & _ & H).
  destruct H as (y & k & pre & _ & _ & _ & Hrun).
  - left. vm_compute. do 4 right. left. reflexivity.
  - exact (Hrun (world_of r) eq_refl).
Defined.

(** The falsy timeouts [0] and [''] are used as given: zero seconds are too
    short for the scheduler to answer, and the empty string does not
    parse; the default ["10s"] replaces neither. *)
Example zero_and_empty_are_falsy :
  truthy (Num 0) = false /\ truthy (Str "") = false.
Proof. split; reflexivity. Qed.

Example zero_timeout_not_defaulted :
  result_of (with_ Runtime.handle (worker_client_call (Some (Num 0)) true)
               Runtime.block_ok Runtime.example_world)
  = Raises ConnectionTimeout.
Proof. vm_compute. reflexivity. Qed.

Example empty_timeout_not_defaulted :
  result_of (with_ Runtime.handle (worker_client_call (Some (Str "")) true)
               Runtime.block_ok Runtime.example_world)
  = Raises (ParseError "").
Proof. vm_compute. reflexivity. Qed.

(** The same run as in C1 with a block that completes: [rejoin] is called
    and the pool counts one thread again. *)
Example slot_restored_on_normal_exit :
  let r := with_ Runtime.handle (worker_client_call None true)
             Runtime.block_ok Runtime.example_world in
  result_of r = Returns tt /\
  count is_secede (trace_of r) = 1 /\
  count is_rejoin (trace_of r) = 1 /\
  Runtime.accounted (Runtime.pool (world_of r)) = 1 /\
  Runtime.membership (Runtime.pool (world_of r)) = Runtime.InPool.
Proof. vm_compute. repeat split. Qed.

End Runs.

(** * Further properties of the scope *)

Section Scope.
Context {W : Type}.
Variable handle : forall c : Call, W -> outcome (ret c) * W.

(** What is left of the generator when [__enter__] returns with
    [separate_thread=False]: nothing. *)
Lemma enter_same_thread_rest (timeout : option duration) (w w' : W)
    (y : Client) (k : generator) (t : list Event) :
  cm_enter handle (worker_client timeout false) w = (Returns (y, k), w', t) ->
  k = Return tt.
Proof.
  destruct timeout as [d|]; unfold_all; repeat step handle;
    intros H; inversion H; reflexivity.
Qed.

(** X1.  With [separate_thread=True], if the read of [thread_state.key] or
    the subscript [worker.tasks[...]] raises, that error is what the [with]
    statement raises; by then [secede] has returned, and neither
    [add_callback] nor [rejoin] is called and no client is handed to the
    block. *)
Theorem task_lookup_failure_after_secede (timeout : option duration)
    (body : block) (w : W) :
  let r := with_ handle (worker_client_call timeout true) body w in
  forall c e,
    is_task_lookup c = true ->
    In (Raised c e) (trace_of r) ->
    result_of r = Raises e /\
    In (Returned Secede) (trace_of r) /\
    count is_add_callback (trace_of r) = 0 /\
    count is_rejoin (trace_of r) = 0 /\
    forall y, ~ In (Yielded y) (trace_of r).
Proof.
  destruct timeout as [d|]; crunch handle body;
    intros c e' Hc Hin; simpl in Hin;
    repeat match goal with
    | H : _ \/ _ |- _ => destruct H
    | H : False |- _ => destruct H
    | H : Raised _ _ = Raised _ _ |- _ => inversion H; clear H; subst
    | H : Returned _ = _ |- _ => discriminate H
    | H : Yielded _ = _ |- _ => discriminate H
    end; try discriminate Hc;
    (split; [reflexivity|]);
    (split; [simpl; tauto|]);
    (split; [reflexivity|]);
    (split; [reflexivity|]);
    intros y' Hy; simpl in Hy; intuition discriminate.
Qed.

(** X3.  The timeout is resolved before anything else.  If
    [dask.config.get] or [parse_timedelta] raises, that error is what the
    [with] statement raises, and [get_worker], [get_client] and [secede] are
    not called and no client is handed to the block.  On every run
    [get_worker] is called only after [parse_timedelta] has returned, and
    the parser is always given the default unit ['s']. *)
Theorem timeout_resolved_first (timeout : option duration)
    (separate_thread : bool) (body : block) (w : W) :
  let r := with_ handle (worker_client_call timeout separate_thread) body w in
  (forall c e,
      is_config_get c || is_parse c = true ->
      In (Raised c e) (trace_of r) ->
      result_of r = Raises e /\
      count is_get_worker (trace_of r) = 0 /\
      count is_get_client (trace_of r) = 0 /\
      count is_secede (trace_of r) = 0 /\
      forall y, ~ In (Yielded y) (trace_of r)) /\
  preceded_by (returned is_parse) (is_call_of is_get_worker) (trace_of r) /\
  forall d u, called (ParseTimedelta d u) (trace_of r) -> u = "s".
Proof.
  split; [|split; [apply check_preceded_by|]];
    destruct timeout as [d|], separate_thread; crunch handle body;
    try reflexivity.
  all: try (intros c e' Hc Hin; simpl in Hin;
    repeat match goal with
    | H : _ \/ _ |- _ => destruct H
    | H : False |- _ => destruct H
    | H : Raised _ _ = Raised _ _ |- _ => inversion H; clear H; subst
    | H : Returned _ = _ |- _ => discriminate H
    | H : Yielded _ = _ |- _ => discriminate H
    end; try discriminate Hc;
    (split; [reflexivity|]);
    (split; [reflexivity|]);
    (split; [reflexivity|]);
    (split; [reflexivity|]);
    intros y' Hy; simpl in Hy; intuition discriminate).
  all: trace_facts.
Qed.

(** X5.  When the block completes: with [separate_thread=True] the
    generator makes exactly one more call, [rejoin], and the [with]
    statement completes if [rejoin] returns and raises [rejoin]'s error
    otherwise; with [separate_thread=False] it makes no call at all and the
    [with] statement completes in the world the block left. *)
Theorem block_completion_exit (timeout : option duration)
    (separate_thread : bool) (body : block) (w w1 w2 : W) (y : Client)
    (k : generator) (t1 : list Event) :
  cm_enter handle (worker_client timeout separate_thread) w
    = (Returns (y, k), w1, t1) ->
  body y w1 = (Returns tt, w2) ->
  with_ handle (worker_client_call timeout separate_thread) body w =
    if separate_thread then
      match handle Rejoin w2 with
      | (Returns _, w3) => (Returns tt, w3, t1 ++ [Returned Rejoin])
      | (Raises e, w3) => (Raises e, w3, t1 ++ [Raised Rejoin e])
      end
    else (Returns tt, w2, t1).
Proof.
  intros Henter Hbody. destruct separate_thread.
  - exact (rejoin_called_when_block_completes handle
             _ _ _ _ _ _ _ _ Henter Hbody).
  - pose proof (enter_same_thread_rest _ _ _ _ _ _ Henter) as ->.
    unfold with_, worker_client_call. simpl. rewrite Henter, Hbody.
    simpl. rewrite app_nil_r. reflexivity.
Qed.

(** X6.  In one scope every collaborator is called at most once:
    [dask.config.get], [parse_timedelta], [get_worker], [get_client],
    [secede], the read of [thread_state.key], the subscript
    [worker.tasks[...]], [add_callback] and [rejoin]; and [rejoin] is never
    called more often than [secede] has returned. *)
Theorem each_collaborator_called_at_most_once (timeout : option duration)
    (separate_thread : bool) (body : block) (w : W) :
  let t := trace_of (with_ handle
             (worker_client_call timeout separate_thread) body w) in
  count is_config_get t <= 1 /\
  count is_parse t <= 1 /\
  count is_get_worker t <= 1 /\
  count is_get_client t <= 1 /\
  count is_secede t <= 1 /\
  count is_thread_state_key t <= 1 /\
  count is_tasks_getitem t <= 1 /\
  count is_add_callback t <= 1 /\
  count is_rejoin t <= 1 /\
  count is_rejoin t <= length (filter (fun ev => returned is_secede ev = true) t).
Proof.
  destruct timeout as [d|], separate_thread; crunch handle body;
    repeat split; cbn; lia.
Qed.

(** X7.  The [with] statement raises only what a collaborator or the block
    raised: the generator always yields once and then stops, so the errors
    of the context-manager protocol itself never occur.  And it completes
    only if the block did. *)
Theorem only_collaborator_or_block_errors (timeout : option duration)
    (separate_thread : bool) (body : block) (w : W) :
  let r := with_ handle (worker_client_call timeout separate_thread) body w in
  (forall e, result_of r = Raises e ->
     (exists c, In (Raised c e) (trace_of r)) \/
     (exists y w1 w2, body y w1 = (Raises e, w2))) /\
  (result_of r = Returns tt ->
     exists y w1 w2, body y w1 = (Returns tt, w2) /\ In (Yielded y) (trace_of r)).
Proof.
  destruct timeout as [d|], separate_thread; crunch handle body.
  all: split.
  all: try (intros Hr; discriminate Hr).
  all: try (intros e' He; inversion He; subst;
            first [ right; eexists _, _, _; eassumption
                  | left; eexists; simpl; tauto ]).
  all: intros Hr; eexists _, _, _; split; [eassumption | simpl; tauto].
Qed.

(** X8.  [local_client] warns first, before any line of [worker_client]
    runs.  If [warnings.warn] raises, that error is what the [with]
    statement raises, in the world the failed warning left, and nothing
    else is called; if it returns, it is the first event of the run. *)
Theorem local_client_warns_first (timeout : option duration)
    (separate_thread : bool) (body : block) (w : W) :
  let r := with_ handle (local_client timeout separate_thread) body w in
  match handle (Warn deprecation_message) w with
  | (Raises e, w1) => r = (Raises e, w1, [Raised (Warn deprecation_message) e])
  | (Returns _, _) =>
      exists rest, trace_of r = Returned (Warn deprecation_message) :: rest
  end.
Proof.
  destruct timeout as [d|], separate_thread; crunch handle body;
    first [reflexivity | eexists; reflexivity].
Qed.

(** X9.  The calls are ordered: the task lookups, [add_callback] and
    [rejoin] happen only after [secede] has returned; [rejoin] only after
    the client has been handed to the block; and the client is handed over
    only after [get_client] has returned. *)
Theorem secession_calls_ordered (timeout : option duration)
    (separate_thread : bool) (body : block) (w : W) :
  let t := trace_of (with_ handle
             (worker_client_call timeout separate_thread) body w) in
  preceded_by (returned is_secede)
    (fun ev => is_call_of is_task_lookup ev || is_call_of is_add_callback ev
               || is_call_of is_rejoin ev) t /\
  preceded_by is_yield (is_call_of is_rejoin) t /\
  preceded_by (returned is_get_client) is_yield t.
Proof.
  split; [|split]; apply check_preceded_by;
    destruct timeout as [d|], separate_thread; crunch handle body;
    reflexivity.
Qed.

End Scope.

(** * Further properties on the worker runtime *)

Section ScopeRuntime.

(** X2.  Suppose the calling thread's task key is not in [worker.tasks].
    Then [worker_client(separate_thread=True)] never hands a client over;
    and if it gets as far as [secede], it raises [KeyError] for that key
    with nothing queued on the control loop, and a thread that held a slot
    is left without one. *)
Theorem missing_task_raises_key_error (timeout : option duration)
    (w : Runtime.World) (key : Key) :
  Runtime.thread_key w = Some key ->
  Runtime.tasks w !! key = None ->
  let r := cm_enter Runtime.handle (worker_client timeout true) w in
  (forall y k, result_of r <> Returns (y, k)) /\
  (called Secede (trace_of r) ->
   result_of r = Raises (KeyError key) /\
   Runtime.loop (world_of r) = Runtime.loop w /\
   count is_add_callback (trace_of r) = 0 /\
   (Runtime.membership (Runtime.pool w) = Runtime.InPool ->
    Runtime.pool (world_of r) =
      {| Runtime.accounted := pred (Runtime.accounted (Runtime.pool w));
         Runtime.membership := Runtime.Seceded |})).
Proof.
  intros Hkey Hts r. revert Hkey Hts. subst r.
  destruct timeout; runtime_cases; intros Hkey Hts; simplify_eq.
  all: split; [intros y' k' Hr; discriminate Hr|].
  all: unfold called; intros Hs.
  all: try (exfalso; simpl in Hs;
            repeat match goal with
            | H : _ \/ _ |- _ => destruct H
            | H : exists _, _ |- _ => destruct H
            | H : False |- _ => destruct H
            | H : Returned _ = _ |- _ => discriminate H
            | H : Raised _ _ = _ |- _ => discriminate H
            end; fail).
  all: repeat split; intros; congruence.
Qed.

End ScopeRuntime.

(** * Further runs of the example world *)

Section ScopeRuns.

(** Task ["x"] is started but is not in [worker.tasks]. *)
Lemma task_lookup_failure_after_secede_witness :
  let r := with_ Runtime.handle (worker_client_call None true)
             Runtime.block_ok (Runtime.start_task "x" Runtime.example_world) in
  result_of r = Raises (KeyError "x") /\
  In (Returned Secede) (trace_of r) /\
  count is_add_callback (trace_of r) = 0 /\
  count is_rejoin (trace_of r) = 0 /\
  forall y, ~ In (Yielded y) (trace_of r).
Proof.
  intros r.
  apply (task_lookup_failure_after_secede Runtime.handle None
           Runtime.block_ok (Runtime.start_task "x" Runtime.example_world)
           (TasksGetItem 1 "x") (KeyError "x")).
  - reflexivity.
  - vm_compute. do 6 right. left. reflexivity.
Defined.

Lemma missing_task_raises_key_error_witness :
  let r := cm_enter Runtime.handle (worker_client None true)
             (Runtime.start_task "x" Runtime.example_world) in
  result_of r = Raises (KeyError "x") /\
  Runtime.loop (world_of r) = [] /\
  Runtime.membership (Runtime.pool (world_of r)) = Runtime.Seceded.
Proof.
  intros r.
  assert (Hts : Runtime.tasks (Runtime.start_task "x" Runtime.example_world)
                  !! "x" = None) by (vm_compute; reflexivity).
  destruct (missing_task_raises_key_error None
              (Runtime.start_task "x" Runtime.example_world) "x"
              eq_refl Hts) as [_ H].
  destruct H as (Hr & Hl & _ & Hp).
  - left. vm_compute. do 4 right. left. reflexivity.
  - split; [exact Hr|]. split; [exact Hl|].
    fold r in Hp. rewrite (Hp eq_refl). reflexivity.
Defined.

(** An unparseable timeout. *)
Lemma timeout_resolved_first_witness :
  let r := with_ Runtime.handle (worker_client_call (Some (Str "xx")) true)
             Runtime.block_ok Runtime.example_world in
  result_of r = Raises (ParseError "xx") /\
  count is_get_worker (trace_of r) = 0 /\
  count is_get_client (trace_of r) = 0 /\
  count is_secede (trace_of r) = 0 /\
  forall y, ~ In (Yielded y) (trace_of r).
Proof.
  intros r.
  destruct (timeout_resolved_first Runtime.handle (Some (Str "xx")) true
              Runtime.block_ok Runtime.example_world) as [H _].
  apply (H (ParseTimedelta (Str "xx") "s") (ParseError "xx")).
  - reflexivity.
  - vm_compute. left. reflexivity.
Defined.

(** The block completes, [separate_thread=True]. *)
Lemma block_completion_exit_witness :
  let r := cm_enter Runtime.handle (worker_client None true)
             Runtime.example_world in
  with_ Runtime.handle (worker_client_call None true) Runtime.block_ok
    Runtime.example_world
  = match Runtime.handle Rejoin (world_of r) with
    | (Returns _, w3) => (Returns tt, w3, trace_of r ++ [Returned Rejoin])
    | (Raises e, w3) => (Raises e, w3, trace_of r ++ [Raised Rejoin e])
    end.
Proof.
  intros r.
  apply (block_completion_exit Runtime.handle None true
           Runtime.block_ok Runtime.example_world (world_of r)
           (world_of r) 1 rejoin (trace_of r)).
  - vm_compute. reflexivity.
  - reflexivity.
Defined.

(** A timeout of zero: the error of the [with] statement is
    [get_client]'s. *)
Lemma only_collaborator_or_block_errors_witness :
  let r := with_ Runtime.handle (worker_client_call (Some (Num 0)) false)
             Runtime.block_ok Runtime.example_world in
  (exists c, In (Raised c ConnectionTimeout) (trace_of r)) \/
  (exists y w1 w2, Runtime.block_ok y w1 = (Raises ConnectionTimeout, w2)).
Proof.
  intros r.
  destruct (only_collaborator_or_block_errors Runtime.handle
              (Some (Num 0)) false Runtime.block_ok Runtime.example_world)
    as [H _].
  apply (H ConnectionTimeout). vm_compute. reflexivity.
Defined.

End ScopeRuns.
